(** * Monika: the history store and the Symon reporter

    A shallow embedding of
      - src/components/logger/history.ts   (module [History] below)
      - src/components/reporter/index.ts   (module [Reporter] below)

    The SQLite engine behind [history.ts] is modelled by the effect that each
    of the six statements the file issues has on the [history] table.  What
    only the engine or the clock decides is an argument of the model: which
    of two statements given without waiting the engine runs first, the rowid
    it draws at random, the time of a call.  Promises are modelled by their
    settlement ([outcome]); loggers, the HTTP client and the errors that no
    callback receives by the list of what reached them. *)

From Stdlib Require Import ZArith List String Ascii Bool Lia.
From Stdlib Require Import DecimalString.
Import ListNotations.
Open Scope string_scope.
Open Scope list_scope.
Open Scope Z_scope.

(** ** Values shared by the two modules *)

(** How a promise settles: [resolve(a)] or [reject(new Error(msg))]. *)
Inductive outcome (A : Type) : Type :=
| Resolved (a : A)
| Rejected (msg : string).
Arguments Resolved {A} a.
Arguments Rejected {A} msg.

(** The JavaScript values that reach this code: what sqlite3 hands back for a
    column (number, string, null) and [undefined] for a property that an
    object does not have. *)
Inductive jsval : Type :=
| JUndefined
| JNull
| JNum (z : Z)
| JStr (s : string).

(** A JavaScript object, as its own enumerable properties in insertion
    order. *)
Definition jsobj : Type := list (string * jsval).

(** [o[k]] as a property-presence test. *)
Fixpoint lookup (k : string) (o : jsobj) : option jsval :=
  match o with
  | [] => None
  | (k', v) :: o' => if String.eqb k k' then Some v else lookup k o'
  end.

(** [o.k]: the property's value, [undefined] when [o] has no such property. *)
Definition prop (k : string) (o : jsobj) : jsval :=
  match lookup k o with
  | Some v => v
  | None => JUndefined
  end.

(** A call to the pino logger: the level and the arguments as passed. *)
Inductive level : Type := LInfo | LWarn.

Record log_entry : Type := mkLog { lvl : level; args : list string }.

(** [String(n)] for an integer-valued number below 10^21 in size, which
    JavaScript prints in plain decimal. *)
Definition show_Z (z : Z) : string := NilZero.string_of_int (Z.to_int z).

(** The number JavaScript gets for a 64-bit integer of the engine: the
    nearest double, a tie going to the even significand.  An integer of at
    most 53 bits comes through unchanged. *)
Definition js_number (z : Z) : Z :=
  let a := Z.abs z in
  let bits := Z.log2 a + 1 in
  if bits <=? 53 then z
  else
    let shift := bits - 53 in
    let q := Z.shiftr a shift in
    let rest := a - Z.shiftl q shift in
    let half := Z.shiftl 1 (shift - 1) in
    let q' :=
      if (half <? rest) || ((rest =? half) && Z.odd q) then q + 1 else q in
    Z.sgn z * Z.shiftl q' shift.

(** [Number.isSafeInteger(z)]: below 2^53 in size. *)
Definition safe_integer (z : Z) : Prop := Z.abs z < 9007199254740992.


(** [s] occurs inside [t]. *)
Definition contains (s t : string) : Prop :=
  exists pre post, t = (pre ++ s ++ post)%string.

Module History.

(** *** The [history] table *)

(** A value stored in a column. *)
Inductive sqlval : Type :=
| SqlNull
| SqlInt (z : Z)
| SqlText (s : string).

(** One row of [history], column by column as [createTableSQL] declares
    them.  [id] is [INTEGER PRIMARY KEY], the rowid, a 64-bit integer;
    [reported] is [INTEGER DEFAULT 0] and only ever written as [0] or
    [1]. *)
Record row : Type := mkRow {
  id : Z;
  created_at : sqlval;
  probe_id : sqlval;
  status_code : sqlval;
  probe_name : sqlval;
  probe_url : sqlval;
  response_time : sqlval;
  error_resp : sqlval;
  reported : Z
}.

(** The rows of the table, in rowid order. *)
Definition table : Type := list row.

(** [let db: any]: a handle that answers the statements given to it.
    [Live t] is open for reading and writing on a database whose [history]
    table is [t], [None] when the table does not exist.  [ReadOnly t] is
    open on a write-protected database, which the engine opens for reading
    only.  [Dead msg] answers every statement with the error [msg]: the
    handle was closed, or the file it was opened on is not a database.
    A handle whose open failed is none of these: statements given to it
    are queued and never answered. *)
Inductive conn : Type :=
| Live (t : option table)
| Dead (msg : string)
| ReadOnly (t : option table).

(** What [path.resolve(process.cwd(), 'monika-logs.db')] names before an
    open: something the engine refuses to open, nothing (in a directory
    where a file can be made), a database file with or without the
    [history] table, the same write-protected, or a file that opens and is
    no database, every statement on which fails with [msg]. *)
Inductive disk : Type :=
| CannotOpen (msg : string)
| NoFile
| DbFile (t : option table)
| WriteProtected (t : option table)
| NotADatabase (msg : string).

(** *** The statements *)

(** The seven values bound to the [?] of [insertSQL], in the order of its
    column list: probe_id, created_at, status_code, probe_name, probe_url,
    response_time, error_resp. *)
Record params : Type := mkParams {
  v_probe_id : sqlval;
  v_created_at : sqlval;
  v_status_code : sqlval;
  v_probe_name : sqlval;
  v_probe_url : sqlval;
  v_response_time : sqlval;
  v_error_resp : sqlval
}.

(** The statements run with [db.run].  An insert carries what only the
    engine decides: [random_rowid], the rowid it settles on when it has to
    draw one at random, [None] when it gives up. *)
Inductive command : Type :=
| CreateTableIfNotExists
| DropTableIfExists
| UpdateReportedIn (ids : list Z)
| InsertInto (p : params) (random_rowid : option Z).

(** The statements run with [db.all]. *)
Inductive query : Type :=
| SelectAll
| SelectUnreported.





Definition readAllRowsSQL : string :=
  "SELECT rowid AS id, probe_id, status_code, probe_url, response_time FROM history".

Definition readUnreportedRowsSQL : string :=
  "SELECT id, created_at, probe_id, status_code, probe_name, probe_url, response_time, error_resp FROM history WHERE reported = 0".


Definition query_sql (q : query) : string :=
  match q with
  | SelectAll => readAllRowsSQL
  | SelectUnreported => readUnreportedRowsSQL
  end.

(** *** The engine

    What each statement does to the table, as SQLite defines it:
      - [CREATE TABLE IF NOT EXISTS] makes an empty table when there is none
        and leaves an existing one alone;
      - [DROP TABLE IF EXISTS] removes the table, or does nothing;
      - [UPDATE ... WHERE id IN (...)] rewrites the rows whose id is listed;
        a listed id that no row has matches nothing, and so does an empty
        list, which SQLite accepts;
      - [INSERT] without an id adds a row whose [reported] takes the column
        default and whose rowid is one more than the largest in use (1 in
        an empty table); once the largest possible rowid is in use the
        engine draws rowids between 1 and 2^62 at random, and fails with
        SQLITE_FULL when it finds none that is unused;
      - every statement but the first two fails when the table is missing;
      - on a database opened for reading only, a statement that would
        write fails and changes nothing. *)

Definition no_such_table : string := "SQLITE_ERROR: no such table: history".

Definition read_only_message : string :=
  "SQLITE_READONLY: attempt to write a readonly database".

Definition full_message : string := "SQLITE_FULL: database or disk is full".

(** The largest rowid there is: 2^63 - 1. *)
Definition largest_rowid : Z := 9223372036854775807.

Fixpoint max_rowid (t : table) : option Z :=
  match t with
  | [] => None
  | r :: t' =>
      match max_rowid t' with
      | None => Some (id r)
      | Some m => Some (Z.max (id r) m)
      end
  end.

(** [z] is the rowid of some row. *)
Definition rowid_in_use (z : Z) (t : table) : bool :=
  existsb (fun r => id r =? z) t.

(** The largest rowid the engine draws at random: 2^62. *)
Definition largest_random_rowid : Z := 4611686018427387904.

(** The rowid an insert gets, [None] when the engine gives up. *)
Definition next_rowid (random_rowid : option Z) (t : table) : option Z :=
  match max_rowid t with
  | None => Some 1
  | Some m =>
      if m <? largest_rowid then Some (m + 1)
      else
        match random_rowid with
        | Some z =>
            if (1 <=? z) && (z <=? largest_random_rowid)
               && negb (rowid_in_use z t)
            then Some z
            else None
        | None => None
        end
  end.

Definition new_row (rowid : Z) (p : params) : row :=
  {| id := rowid;
     created_at := v_created_at p;
     probe_id := v_probe_id p;
     status_code := v_status_code p;
     probe_name := v_probe_name p;
     probe_url := v_probe_url p;
     response_time := v_response_time p;
     error_resp := v_error_resp p;
     reported := 0 |}.

(** The table with one more row, kept in rowid order: the row goes before
    the first row with a larger rowid, at the end when there is none. *)
Fixpoint insert_by_rowid (r : row) (t : table) : table :=
  match t with
  | [] => [r]
  | x :: t' =>
      if id r <? id x then r :: x :: t' else x :: insert_by_rowid r t'
  end.

(** [SET reported = 1] on one row. *)
Definition set_reported (r : row) : row :=
  {| id := id r;
     created_at := created_at r;
     probe_id := probe_id r;
     status_code := status_code r;
     probe_name := probe_name r;
     probe_url := probe_url r;
     response_time := response_time r;
     error_resp := error_resp r;
     reported := 1 |}.

(** [id IN (ids)] *)
Definition id_in (ids : list Z) (r : row) : bool :=
  existsb (Z.eqb (id r)) ids.

Definition update_reported (ids : list Z) (t : table) : table :=
  map (fun r => if id_in ids r then set_reported r else r) t.

(** [WHERE reported = 0] *)
Definition unreported (r : row) : bool := reported r =? 0.

(** A statement of [db.run] on the table of a database that can be
    written: the error, if any, and the table afterwards. *)
Definition run_on (c : command) (t : option table)
  : option string * option table :=
  match c, t with
  | CreateTableIfNotExists, None => (None, Some [])
  | CreateTableIfNotExists, Some t => (None, Some t)
  | DropTableIfExists, _ => (None, None)
  | UpdateReportedIn ids, Some t => (None, Some (update_reported ids t))
  | InsertInto p random_rowid, Some t =>
      match next_rowid random_rowid t with
      | Some rowid => (None, Some (insert_by_rowid (new_row rowid p) t))
      | None => (Some full_message, Some t)
      end
  | UpdateReportedIn _, None => (Some no_such_table, None)
  | InsertInto _ _, None => (Some no_such_table, None)
  end.

(** The error of a statement of [db.run] on a database opened for reading
    only, [None] for the statements that have nothing to write. *)
Definition refused (c : command) (t : option table) : option string :=
  match c, t with
  | CreateTableIfNotExists, Some _ => None
  | CreateTableIfNotExists, None => Some read_only_message
  | DropTableIfExists, None => None
  | DropTableIfExists, Some _ => Some read_only_message
  | UpdateReportedIn _, Some _ => Some read_only_message
  | InsertInto _ _, Some _ => Some read_only_message
  | UpdateReportedIn _, None => Some no_such_table
  | InsertInto _ _, None => Some no_such_table
  end.

(** [db.run(sql, params, callback)]: the [err] given to the callback and the
    handle afterwards. *)
Definition db_run (c : command) (db : conn) : option string * conn :=
  match db with
  | Dead msg => (Some msg, Dead msg)
  | Live t => let (err, t') := run_on c t in (err, Live t')
  | ReadOnly t => (refused c t, ReadOnly t)
  end.

(** [db.run(sql)] with no callback: the handle afterwards, and the errors
    that nothing receives.  sqlite3 emits such an error as an 'error' event
    on the database, which no code of history.ts listens to: an uncaught
    exception of the process. *)
Definition db_run_unheard (c : command) (db : conn) : conn * list string :=
  let (err, db') := db_run c db in
  (db', match err with
        | Some message => [message]
        | None => []
        end).

(** A 64-bit integer column as JavaScript gets it. *)
Definition js_of_sql (v : sqlval) : jsval :=
  match v with
  | SqlNull => JNull
  | SqlInt z => JNum (js_number z)
  | SqlText s => JStr s
  end.

(** The object sqlite3 builds for a row of each [SELECT]: one property per
    selected column, named by the column (or its [AS] alias). *)
Definition select_row (q : query) (r : row) : jsobj :=
  match q with
  | SelectAll =>
      [ ("id", JNum (js_number (id r)));
        ("probe_id", js_of_sql (probe_id r));
        ("status_code", js_of_sql (status_code r));
        ("probe_url", js_of_sql (probe_url r));
        ("response_time", js_of_sql (response_time r)) ]
  | SelectUnreported =>
      [ ("id", JNum (js_number (id r)));
        ("created_at", js_of_sql (created_at r));
        ("probe_id", js_of_sql (probe_id r));
        ("status_code", js_of_sql (status_code r));
        ("probe_name", js_of_sql (probe_name r));
        ("probe_url", js_of_sql (probe_url r));
        ("response_time", js_of_sql (response_time r));
        ("error_resp", js_of_sql (error_resp r)) ]
  end.

Definition where_clause (q : query) (r : row) : bool :=
  match q with
  | SelectAll => true
  | SelectUnreported => unreported r
  end.

(** [db.all(sql, callback)]: the callback's [(err, data)] as an outcome. *)
Definition db_all (q : query) (db : conn) : outcome (list jsobj) :=
  match db with
  | Dead msg => Rejected msg
  | Live None => Rejected no_such_table
  | Live (Some t) => Resolved (map (select_row q) (filter (where_clause q) t))
  | ReadOnly None => Rejected no_such_table
  | ReadOnly (Some t) =>
      Resolved (map (select_row q) (filter (where_clause q) t))
  end.

(** [new sqlite3.Database(dbPath, OPEN_READWRITE | OPEN_CREATE, callback)]:
    the [err] given to the callback and the handle, [None] for the handle
    of a failed open, which answers nothing.  [OPEN_CREATE] makes a missing
    file; a write-protected database is opened for reading only, without
    error; a file that is no database opens without error too, the engine
    reading it only at the first statement. *)
Definition sqlite3_Database (d : disk) : option string * option conn :=
  match d with
  | CannotOpen msg => (Some msg, None)
  | NoFile => (None, Some (Live None))
  | DbFile t => (None, Some (Live t))
  | WriteProtected t => (None, Some (ReadOnly t))
  | NotADatabase msg => (None, Some (Dead msg))
  end.

(** What the path names once the open of [d] has left the handle [h] and
    the statements given to it have run: the table of a live handle is the
    file's; otherwise the path is as it was. *)
Definition on_disk (d : disk) (h : option conn) : disk :=
  match h with
  | Some (Live t) => DbFile t
  | Some (ReadOnly t) => WriteProtected t
  | _ => d
  end.

Definition closed_message : string := "SQLITE_MISUSE: Database is closed".

(** *** history.ts *)

(** The arguments of [saveLog], with the properties it reads:
    [probe.id], [probe.name], [probeRes.status], [probeRes.config.url] and
    [probeRes.config.extraData?.responseTime]. *)
Record Probe : Type := mkProbe {
  probe_id_of : string;
  probe_name_of : option string
}.

Record AxiosResponseWithExtraData : Type := mkResponse {
  status : Z;
  config_url : option string;
  config_extraData_responseTime : option Z
}.

Definition text (s : string) : sqlval := SqlText s.

Definition opt_text (s : option string) : sqlval :=
  match s with
  | Some s => SqlText s
  | None => SqlNull
  end.

Definition opt_int (z : option Z) : sqlval :=
  match z with
  | Some z => SqlInt z
  | None => SqlNull
  end.

(** [createTable]: the statement is run without a callback; the handle once
    it has run, and its error, if any, which nothing receives. *)
Definition createTable (db : conn) : conn * list string :=
  db_run_unheard CreateTableIfNotExists db.

(** The open that [openLogfile] has asked for and the engine has not yet
    answered. *)
Inductive pending : Type :=
| PendingOpen (d : disk).

(** [openLogfile], up to its return: the promise of the async function,
    which nothing in the body can reject and nothing delays, and the open
    still pending.  Nothing was logged and no statement was given yet. *)
Definition openLogfile (d : disk) : outcome unit * pending :=
  (Resolved tt, PendingOpen d).

(** What the callback of the open leaves, some time after [openLogfile]
    has returned: the handle once [createTable]'s statement has run
    ([None] after a failed open, where the statement is queued for ever),
    what was logged, and the errors that nothing received. *)
Record opened : Type := mkOpened {
  handle : option conn;
  open_logged : list log_entry;
  open_uncaught : list string
}.

(** The callback given to [new sqlite3.Database]:
    [if (err) log.info(...)], then [createTable()]. *)
Definition openLogfile_callback (p : pending) : opened :=
  match p with
  | PendingOpen d =>
      let (err, h) := sqlite3_Database d in
      let logged :=
        match err with
        | Some message =>
            [mkLog LInfo ["warning: cannot open logfile. error:"; message]]
        | None => []
        end in
      match h with
      | Some db =>
          let (db', uncaught) := createTable db in
          mkOpened (Some db') logged uncaught
      | None => mkOpened None logged []
      end
  end.

Definition getAllLogs (db : conn) : outcome (list jsobj) :=
  db_all SelectAll db.

Definition getUnreportedLogs (db : conn) : outcome (list jsobj) :=
  db_all SelectUnreported db.

Definition setLogsAsReported (ids : list Z) (db : conn)
  : outcome unit * conn :=
  let (err, db') := db_run (UpdateReportedIn ids) db in
  match err with
  | Some message =>
      (Rejected
         ("error, cannot mark logs as updated in history.db: " ++ message)%string,
       db')
  | None => (Resolved tt, db')
  end.

(** The two statements of [flushAllLogs] are given to the engine one after
    the other, and nothing waits for the first before the second is given
    ([db.run] returns the database, which [await] takes as a value): the
    engine may evaluate [CREATE TABLE IF NOT EXISTS] while the table is
    still there. *)
Inductive race : Type :=
| DropRunsFirst
| CreateRunsFirst.

(** [flushAllLogs]: the promise, the handle once both statements have run,
    in the order [first] says, and the errors that nothing received. *)
Definition flushAllLogs (first : race) (db : conn)
  : outcome unit * conn * list string :=
  match first with
  | DropRunsFirst =>
      let (db1, dropped) := db_run_unheard DropTableIfExists db in
      let (db2, created) := createTable db1 in
      (Resolved tt, db2, dropped ++ created)
  | CreateRunsFirst =>
      let (db1, created) := createTable db in
      let (db2, dropped) := db_run_unheard DropTableIfExists db1 in
      (Resolved tt, db2, created ++ dropped)
  end.

(** [saveLog]; [created] is [new Date().toISOString()] at the call and
    [random_rowid] the engine's draw, should it need one.  The promise
    resolves as soon as the insert is given to the engine ([db.run] returns
    the database, which [await] takes as a value); the handle is the one
    the insert leaves once it has run, and the line is what its callback
    logs then. *)
Definition saveLog (probe : Probe) (probeRes : AxiosResponseWithExtraData)
    (requestIndex : Z) (errorResp : string) (created : string)
    (random_rowid : option Z) (db : conn)
  : outcome unit * conn * list log_entry :=
  let p :=
    {| v_probe_id := text (probe_id_of probe);
       v_created_at := text created;
       v_status_code := SqlInt (status probeRes);
       v_probe_name := opt_text (probe_name_of probe);
       v_probe_url := opt_text (config_url probeRes);
       v_response_time := opt_int (config_extraData_responseTime probeRes);
       v_error_resp := text errorResp |} in
  let (err, db') := db_run (InsertInto p random_rowid) db in
  let logged :=
    match err with
    | Some message =>
        [mkLog LInfo ["error, cannot insert data into history.db"; message]]
    | None => []
    end in
  (Resolved tt, db', logged).

Definition closeLog (db : conn) : conn := Dead closed_message.

(** *** Runs of the store

    The calls made on an open handle, in the order in which the engine runs
    their statements, and the handle after a list of them.  This is the
    order of the calls when each is made once the statement of the one
    before has run. *)
Record log_call : Type := mkCall {
  c_probe : Probe;
  c_probeRes : AxiosResponseWithExtraData;
  c_requestIndex : Z;
  c_errorResp : string;
  c_created : string;
  c_random_rowid : option Z
}.

Inductive op : Type :=
| OpSaveLog (c : log_call)
| OpGetAllLogs
| OpGetUnreportedLogs
| OpSetLogsAsReported (ids : list Z).

Definition save (c : log_call) (db : conn) : conn :=
  snd (fst (saveLog (c_probe c) (c_probeRes c) (c_requestIndex c)
                    (c_errorResp c) (c_created c) (c_random_rowid c) db)).

Definition step (db : conn) (o : op) : conn :=
  match o with
  | OpSaveLog c => save c db
  | OpGetAllLogs => db
  | OpGetUnreportedLogs => db
  | OpSetLogsAsReported ids => snd (setLogsAsReported ids db)
  end.

Definition run (ops : list op) (db : conn) : conn := fold_left step ops db.

(** The rows a handle holds (none when it holds no table). *)
Definition rows_of (db : conn) : table :=
  match db with
  | Live (Some t) => t
  | ReadOnly (Some t) => t
  | _ => []
  end.

(** *** Properties of tables used below *)






(** One more than the largest rowid in use, 1 for the empty table. *)
Definition after_largest (t : table) : Z :=
  match max_rowid t with
  | None => 1
  | Some m => m + 1
  end.

(** Every rowid of the table is below the largest one, by at least [n]:
    the next [n] inserts take the rowid after the largest in use. *)
Definition room_for (n : Z) (t : table) : Prop :=
  forall r, In r t -> id r + n <= largest_rowid.

(** Every rowid of the table is an integer that a JavaScript number holds
    exactly. *)
Definition safe_ids (t : table) : Prop :=
  forall r, In r t -> safe_integer (id r).

End History.

Module Reporter.

(** *** Data of reporter/index.ts *)

Record SymonConfig : Type := mkSymon {
  symon_id : string;
  symon_url : string;
  symon_key : string;
  symon_interval : option Z
}.

Record SymonResponse : Type := mkSymonResponse {
  result : string;
  message : string
}.

(** The configuration returned by [getConfig()]: the two properties this file
    reads, [config.symon] and [config.version], both optional, and the rest
    of the object, which only [md5Hash] looks at. *)
Record Config : Type := mkConfig {
  symon : option SymonConfig;
  version : option string;
  others : jsobj
}.

(** The value of [await getUnreportedLogs()]. *)
Record UnreportedLog : Type := mkUnreported {
  requests : list jsobj;
  notifications : list jsobj
}.

(** The body given to [axios.post] by [report], before [transformRequest]
    turns it into gzipped JSON. *)
Record report_body : Type := mkBody {
  monika_instance_id : string;
  config_version : string;
  data_requests : list jsobj;
  data_notifications : list jsobj
}.

(** One call of [axios.post(url, body, {headers})]. *)
Record http_post : Type := mkPost {
  post_url : string;
  post_body : report_body;
  post_headers : list (string * string)
}.

(** What comes back from the network for a post: a response with its status
    and body, or no response at all. *)
Inductive http_reply : Type :=
| Response (code : Z) (data : SymonResponse)
| NoResponse (reason : string).

(** axios settles a request: a response resolves when its status is 2xx and
    rejects otherwise; no response rejects. *)
Definition status_ok (code : Z) : bool := (200 <=? code) && (code <? 300).

Definition axios_settle (r : http_reply) : outcome SymonResponse :=
  match r with
  | Response code data =>
      if status_ok code then Resolved data
      else Rejected ("Request failed with status code " ++ show_Z code)%string
  | NoResponse reason => Rejected reason
  end.

(** The upload failed: a transport error or a response that is not 2xx. *)
Definition upload_fails (r : http_reply) : Prop :=
  match r with
  | Response code _ => status_ok code = false
  | NoResponse _ => True
  end.

(** The functions imported from '../logger/history', over whatever state
    [Store] the store keeps: the read settles without changing the store, a
    mark settles and leaves a store behind. *)
Class StoreApi (Store : Type) : Type := {
  getUnreportedLogs : Store -> outcome UnreportedLog;
  setRequestLogAsReported : list jsval -> Store -> outcome unit * Store;
  setNotificationLogAsReported : list jsval -> Store -> outcome unit * Store
}.

(** *** Effects

    What a call can touch: the store, the posts made so far and the log. *)
Record world (Store : Type) : Type := mkWorld {
  store : Store;
  posts : list http_post;
  logged : list log_entry
}.
Arguments mkWorld {Store} store posts logged.
Arguments store {Store} w.
Arguments posts {Store} w.
Arguments logged {Store} w.

(** An async computation: from a world to a settlement and the world left. *)
Definition M (Store A : Type) : Type := world Store -> outcome A * world Store.

Definition ret {Store A} (a : A) : M Store A := fun w => (Resolved a, w).

(** [await]: a rejection skips the rest. *)
Definition bind {Store A B} (m : M Store A) (k : A -> M Store B) : M Store B :=
  fun w =>
    match m w with
    | (Resolved a, w') => k a w'
    | (Rejected e, w') => (Rejected e, w')
    end.

Notation "x <- m ;; k" := (bind m (fun x => k))
  (at level 61, m at next level, right associativity).

(** [try { m } catch (error) { handler(error.message) }] *)
Definition try_catch {Store A} (m : M Store A) (handler : string -> M Store A)
  : M Store A :=
  fun w =>
    match m w with
    | (Resolved a, w') => (Resolved a, w')
    | (Rejected e, w') => handler e w'
    end.

(** [Promise.all([m1, m2])]: both calls are made, in order, before anything
    is awaited; the result rejects when either does. *)
Definition Promise_all {Store A B} (m1 : M Store A) (m2 : M Store B)
  : M Store (A * B) :=
  fun w =>
    let (r1, w1) := m1 w in
    let (r2, w2) := m2 w1 in
    (match r1, r2 with
     | Resolved a, Resolved b => Resolved (a, b)
     | Rejected e, _ => Rejected e
     | Resolved _, Rejected e => Rejected e
     end, w2).

Definition reading {Store A} (f : Store -> outcome A) : M Store A :=
  fun w => (f (store w), w).

Definition writing {Store A} (f : Store -> outcome A * Store) : M Store A :=
  fun w =>
    let (r, s) := f (store w) in
    (r, mkWorld s (posts w) (logged w)).

Definition log_warn {Store} (s : string) : M Store unit :=
  fun w => (Resolved tt, mkWorld (store w) (posts w) (logged w ++ [mkLog LWarn [s]])).

(** [axios.post(...)] against a network that answers [collector]. *)
Definition axios_post {Store} (collector : http_post -> http_reply)
    (p : http_post) : M Store SymonResponse :=
  fun w => (axios_settle (collector p), mkWorld (store w) (posts w ++ [p]) (logged w)).

(** *** reporter/index.ts *)

(** [({ id: _, ...rest }) => rest]: the object's properties but [id]. *)
Definition omit_id (o : jsobj) : jsobj :=
  filter (fun kv => negb (String.eqb (fst kv) "id")) o.

(** [(log) => log.id] *)
Definition id_of (o : jsobj) : jsval := prop "id" o.

(** [config.version || md5Hash(config)]: the left operand when it is truthy,
    that is a string other than the empty one. *)
Definition configVersion (md5Hash : Config -> string) (config : Config)
  : string :=
  match version config with
  | Some v => if String.eqb v "" then md5Hash config else v
  | None => md5Hash config
  end.

Definition warning_prefix : string :=
  " ›   Warning: Can't report history to Symon. ".

Section GetLogsAndReport.

Context {Store : Type} {api : StoreApi Store}.

(** [md5Hash] of '../../utils/hash' and the network the agent talks to. *)
Variable md5Hash : Config -> string.
Variable collector : http_post -> http_reply.

(** The request that [report] hands to [axios.post]: the url, the body and
    the three headers. *)
Definition report_post (url key instanceId version : string)
    (reqs notifs : list jsobj) : http_post :=
  {| post_url := (url ++ "/report")%string;
     post_body :=
       {| monika_instance_id := instanceId;
          config_version := version;
          data_requests := reqs;
          data_notifications := notifs |};
     post_headers :=
       [ ("Content-Encoding", "gzip");
         ("Content-Type", "application/json");
         ("x-api-key", key) ] |}.

(** [report({url, key, instanceId, configVersion, data})] *)
Definition report (url key instanceId version : string)
    (reqs notifs : list jsobj) : M Store SymonResponse :=
  axios_post collector (report_post url key instanceId version reqs notifs).

(** [getLogsAndReport]; [config] is what [getConfig()] returns. *)
Definition getLogsAndReport (config : Config) : M Store unit :=
  match symon config with
  | Some sc =>
      let url := symon_url sc in
      let key := symon_key sc in
      let instanceId := symon_id sc in
      try_catch
        (unreportedLog <- reading getUnreportedLogs ;;
         let reqs := map omit_id (requests unreportedLog) in
         let notifs := map omit_id (notifications unreportedLog) in
         _ <- report url key instanceId (configVersion md5Hash config)
                     reqs notifs ;;
         _ <- Promise_all
                (writing (setRequestLogAsReported
                            (map id_of (requests unreportedLog))))
                (writing (setNotificationLogAsReported
                            (map id_of (notifications unreportedLog)))) ;;
         ret tt)
        (fun error_message =>
           log_warn (warning_prefix ++ error_message)%string)
  | None => ret tt
  end.

(** The world a call starts from when only the store matters. *)
Definition fresh (s : Store) : world Store := mkWorld s [] [].

(** The post that [getLogsAndReport] builds from a batch. *)
Definition post_for (config : Config) (sc : SymonConfig)
    (unreportedLog : UnreportedLog) : http_post :=
  report_post (symon_url sc) (symon_key sc) (symon_id sc)
              (configVersion md5Hash config)
              (map omit_id (requests unreportedLog))
              (map omit_id (notifications unreportedLog)).

End GetLogsAndReport.

(** [sent] has every property of [o] but [id], and no [id]. *)
Definition same_but_id (o sent : jsobj) : Prop :=
  lookup "id" sent = None /\
  forall k, k <> "id" -> lookup k sent = lookup k o.

End Reporter.

Module TwoTables.

Import Reporter.

(** Modelled from the spec: the store behind the three functions that
    reporter/index.ts imports from '../logger/history' ([getUnreportedLogs]
    returning both sequences, [setRequestLogAsReported] and
    [setNotificationLogAsReported]).  Spec 4.1 and 9: two independent tables
    with the same contract; listUnreported scans both tables filtered by
    reported = false; markReported sets reported = true for exactly the
    listed rows of one table and fails with StoreWriteError if any id does
    not exist.  Each table is taken with the columns of [history]. *)
Record tables : Type := mkTables {
  request_rows : History.table;
  notification_rows : History.table
}.

(** Modelled from the spec: listUnreported on one table, the rows with
    reported = false, as the objects history.ts selects. *)
Definition listUnreported (t : History.table) : list jsobj :=
  map (History.select_row History.SelectUnreported)
      (filter History.unreported t).

(** Modelled from the spec: the id exists in the table. *)
Definition is_row_id (t : History.table) (v : jsval) : bool :=
  match v with
  | JNum z => existsb (fun r => History.id r =? z) t
  | _ => false
  end.

(** Modelled from the spec: the row is one of those listed. *)
Definition listed (ids : list jsval) (r : History.row) : bool :=
  existsb (fun v => match v with
                    | JNum z => History.id r =? z
                    | _ => false
                    end) ids.

(** Modelled from the spec: markReported on one table. *)
Definition markReported (ids : list jsval) (t : History.table)
  : outcome unit * History.table :=
  if forallb (is_row_id t) ids
  then (Resolved tt,
        map (fun r => if listed ids r then History.set_reported r else r) t)
  else (Rejected "StoreWriteError", t).

(** Modelled from the spec: the three imported functions over the two
    tables, each mark touching its own table only. *)
#[export] Instance tables_api : StoreApi tables := {
  getUnreportedLogs s :=
    Resolved {| requests := listUnreported (request_rows s);
                notifications := listUnreported (notification_rows s) |};
  setRequestLogAsReported ids s :=
    let (r, t) := markReported ids (request_rows s) in
    (r, mkTables t (notification_rows s));
  setNotificationLogAsReported ids s :=
    let (r, t) := markReported ids (notification_rows s) in
    (r, mkTables (request_rows s) t)
}.

End TwoTables.

(** ** Sample data *)

Module Samples.

Import History Reporter TwoTables.

Definition row1 : row :=
  {| id := 1;
     created_at := SqlText "2021-05-01T10:00:00.000Z";
     probe_id := SqlText "1";
     status_code := SqlInt 200;
     probe_name := SqlText "Monika Landing Page";
     probe_url := SqlText "https://hyperjumptech.github.io/monika";
     response_time := SqlInt 120;
     error_resp := SqlText "";
     reported := 0 |}.

Definition row2 : row :=
  {| id := 2;
     created_at := SqlText "2021-05-01T10:00:10.000Z";
     probe_id := SqlText "1";
     status_code := SqlInt 500;
     probe_name := SqlText "Monika Landing Page";
     probe_url := SqlText "https://hyperjumptech.github.io/monika";
     response_time := SqlNull;
     error_resp := SqlText "Internal Server Error";
     reported := 0 |}.

Definition call1 : log_call :=
  {| c_probe := mkProbe "1" (Some "Monika Landing Page");
     c_probeRes :=
       mkResponse 200 (Some "https://hyperjumptech.github.io/monika") (Some 120);
     c_requestIndex := 0;
     c_errorResp := "";
     c_created := "2021-05-01T10:00:20.000Z";
     c_random_rowid := None |}.

Definition cannot_open : disk :=
  CannotOpen "SQLITE_CANTOPEN: unable to open database file".

Definition not_a_database : disk :=
  NotADatabase "SQLITE_NOTADB: file is not a database".

(** A row under the largest rowid there is. *)
Definition row_last : row :=
  {| id := 9223372036854775807;
     created_at := SqlText "2021-05-01T10:00:00.000Z";
     probe_id := SqlText "1";
     status_code := SqlInt 200;
     probe_name := SqlNull;
     probe_url := SqlNull;
     response_time := SqlNull;
     error_resp := SqlText "";
     reported := 0 |}.

Definition symon1 : SymonConfig :=
  {| symon_id := "instance-1";
     symon_url := "https://symon.example";
     symon_key := "secret";
     symon_interval := None |}.

Definition config_versioned : Config :=
  {| symon := Some symon1; version := Some "1.0.0"; others := [] |}.

Definition config_empty_version : Config :=
  {| symon := Some symon1; version := Some ""; others := [] |}.

(** A stand-in for [md5Hash] where an example needs a function: the digest of
    the empty input, whatever the configuration. *)
Definition digest : string := "d41d8cd98f00b204e9800998ecf8427e".
Definition const_hash (config : Config) : string := digest.

Definition accepting (p : http_post) : http_reply :=
  Response 200 {| result := "ok"; message := "" |}.

Definition failing (p : http_post) : http_reply :=
  Response 500 {| result := "error"; message := "" |}.

Definition empty_store : tables := mkTables [] [].

Definition store1 : tables := mkTables [row1] [row2].

End Samples.

(** ** Sessions on the store, and the handshake *)

Module Sessions.

Import History.

(** The number of [saveLog] calls in a list of calls. *)
Definition is_save (o : op) : bool :=
  match o with
  | OpSaveLog _ => true
  | _ => false
  end.

Definition saves (ops : list op) : nat := List.length (filter is_save ops).

(** [rows.map((log) => log.id)] for rows read from the table, whose [id] is
    a number. *)
Definition row_ids (objs : list jsobj) : list Z :=
  flat_map (fun o => match prop "id" o with
                     | JNum z => [z]
                     | _ => []
                     end) objs.

(** The id of an object read from the table is one of [ids]. *)
Definition object_listed (ids : list Z) (o : jsobj) : bool :=
  match prop "id" o with
  | JNum z => existsb (Z.eqb z) ids
  | _ => false
  end.

(** The object [getUnreportedLogs] returns for what [saveLog] stored under
    [rowid]. *)
Definition saved_object (rowid : Z) (probe : Probe)
    (probeRes : AxiosResponseWithExtraData) (errorResp created : string)
  : jsobj :=
  [ ("id", JNum (js_number rowid));
    ("created_at", JStr created);
    ("probe_id", JStr (probe_id_of probe));
    ("status_code", JNum (js_number (status probeRes)));
    ("probe_name", js_of_sql (opt_text (probe_name_of probe)));
    ("probe_url", js_of_sql (opt_text (config_url probeRes)));
    ("response_time",
     js_of_sql (opt_int (config_extraData_responseTime probeRes)));
    ("error_resp", JStr errorResp) ].

(** The line [saveLog] logs when the insert fails. *)
Definition insert_failed (message : string) : log_entry :=
  mkLog LInfo ["error, cannot insert data into history.db"; message].

End Sessions.

Module Handshake.

Import Reporter.

(** The line [getLogsAndReport] logs for a caught error. *)
Definition warned (error_message : string) : log_entry :=
  mkLog LWarn [(warning_prefix ++ error_message)%string].

(** The body and the request of [handshake]. *)
Record handshake_body : Type := mkHandshakeBody {
  instanceId : string;
  hostname : string
}.

Record handshake_post : Type := mkHandshakePost {
  handshake_url : string;
  handshake_data : handshake_body;
  handshake_headers : list (string * string)
}.

(** What a call of a function that is not async gives its caller: the
    promise it returns, or the exception it throws before returning. *)
Inductive called (A : Type) : Type :=
| Returned (a : A)
| ThrewTypeError.
Arguments Returned {A} a.
Arguments ThrewTypeError {A}.

(** [handshake(config)]; [os_hostname] is [os.hostname()] and [collector]
    the network.  [config.symon!.url] on a configuration without [symon]
    reads a property of [undefined], which throws while the arguments of
    [axios.post] are built.  Otherwise the request made and the settlement
    of the promise returned. *)
Definition handshake (os_hostname : string)
    (collector : handshake_post -> http_reply) (config : Config)
  : called (handshake_post * outcome SymonResponse) :=
  match symon config with
  | None => ThrewTypeError
  | Some sc =>
      let p :=
        {| handshake_url := (symon_url sc ++ "/handshake")%string;
           handshake_data :=
             {| instanceId := symon_id sc; hostname := os_hostname |};
           handshake_headers := [("x-api-key", symon_key sc)] |} in
      Returned (p, axios_settle (collector p))
  end.

Definition no_such_table_message : string := History.no_such_table.

(** Sample data: a store that cannot be read, holding the message its read
    rejects with; marks leave it alone. *)
#[export] Instance unreadable_api : StoreApi string := {
  getUnreportedLogs s := Rejected s;
  setRequestLogAsReported ids s := (Resolved tt, s);
  setNotificationLogAsReported ids s := (Resolved tt, s)
}.

End Handshake.

(** ** The store of history.ts *)

Module HistoryFacts.

Import History Samples.

(** *** Rows and marks *)

Lemma id_in_iff (ids : list Z) (r : row) :
  id_in ids r = true <-> In (id r) ids.
Proof.
  unfold id_in. rewrite existsb_exists. split.
  - intros [z [Hz Heq]]. apply Z.eqb_eq in Heq. now rewrite Heq.
  - intros H. exists (id r). split; [assumption | apply Z.eqb_refl].
Qed.


Lemma set_reported_id (r : row) : id (set_reported r) = id r.
Proof. reflexivity. Qed.




Lemma update_reported_ids (ids : list Z) (t : table) :
  map id (update_reported ids t) = map id t.
Proof.
  unfold update_reported. rewrite map_map. apply map_ext.
  intros r. now destruct (id_in ids r).
Qed.


(** On a handle that holds the table, the mark resolves, whatever the ids. *)
Lemma setLogsAsReported_live (ids : list Z) (t : table) :
  setLogsAsReported ids (Live (Some t)) =
  (Resolved tt, Live (Some (update_reported ids t))).
Proof. reflexivity. Qed.






(** *** Opening *)

(** C4, as the code has it: the engine refuses to open the file.  The
    promise of [openLogfile] resolves all the same; when the callback runs,
    the error is logged at level info and [createTable] is called on a
    handle that answers nothing. *)
Lemma C4_failed_open_is_logged_not_raised :
  fst (openLogfile cannot_open) = Resolved tt /\
  openLogfile_callback (snd (openLogfile cannot_open)) =
  mkOpened None
    [mkLog LInfo ["warning: cannot open logfile. error:";
                  "SQLITE_CANTOPEN: unable to open database file"]]
    [].
Proof. split; reflexivity. Qed.

(** C4 (amended): the promise of [openLogfile] resolves at once, with the
    open still pending: no StoreOpenError reaches the caller, and neither
    the file nor the table is there yet.  What the open's callback leaves
    later depends on the path.  When the engine cannot open it, the callback
    logs 'warning: cannot open logfile. error:' with the engine's message
    and the statement of [createTable] is never run.  When the file opens
    and is no database, nothing is logged and the statement of
    [createTable] fails with no callback to receive its error.  Otherwise
    the file is created if there was none and the table if there was none,
    nothing is logged, and the rows of an existing table are kept as they
    are; on a write-protected database the table is kept when it is there,
    and when it is not the statement fails, again with nothing to receive
    the error.  Opening again what an open left gives the same result. *)
Theorem C4_openLogfile_resolves_at_once_and_keeps_rows (d : disk) :
  openLogfile d = (Resolved tt, PendingOpen d) /\
  (forall msg, d = CannotOpen msg ->
     openLogfile_callback (PendingOpen d) =
     mkOpened None
       [mkLog LInfo ["warning: cannot open logfile. error:"; msg]] []) /\
  (forall msg, d = NotADatabase msg ->
     openLogfile_callback (PendingOpen d) =
     mkOpened (Some (Dead msg)) [] [msg]) /\
  (d = NoFile \/ d = DbFile None ->
     openLogfile_callback (PendingOpen d) =
     mkOpened (Some (Live (Some []))) [] []) /\
  (forall t, d = DbFile (Some t) ->
     openLogfile_callback (PendingOpen d) =
     mkOpened (Some (Live (Some t))) [] []) /\
  (forall t, d = WriteProtected (Some t) ->
     openLogfile_callback (PendingOpen d) =
     mkOpened (Some (ReadOnly (Some t))) [] []) /\
  (d = WriteProtected None ->
     openLogfile_callback (PendingOpen d) =
     mkOpened (Some (ReadOnly None)) [] [read_only_message]) /\
  openLogfile_callback
    (PendingOpen (on_disk d (handle (openLogfile_callback (PendingOpen d))))) =
  openLogfile_callback (PendingOpen d).
Proof.
  split; [reflexivity|].
  split; [intros msg ->; reflexivity|].
  split; [intros msg ->; reflexivity|].
  split; [intros [-> | ->]; reflexivity|].
  split; [intros t ->; reflexivity|].
  split; [intros t ->; reflexivity|].
  split; [intros ->; reflexivity|].
  destruct d as [msg| |[t|]|[t|]|msg]; reflexivity.
Qed.

(** *** Rowids *)

Lemma max_rowid_none (t : table) : max_rowid t = None -> t = [].
Proof.
  destruct t as [|r t]; [reflexivity|]. simpl.
  destruct (max_rowid t); discriminate.
Qed.

Lemma max_rowid_bounds (t : table) (r : row) :
  In r t -> exists m, max_rowid t = Some m /\ id r <= m.
Proof.
  induction t as [|a t IH]; simpl; [intros []|].
  intros [-> | Hin].
  - destruct (max_rowid t) as [m|]; eexists; split; try reflexivity; lia.
  - destruct (IH Hin) as [m [-> Hle]]. eexists. split; [reflexivity | lia].
Qed.

(** The largest rowid in use is the rowid of a row. *)
Lemma max_rowid_in_use (t : table) (m : Z) :
  max_rowid t = Some m -> exists r, In r t /\ id r = m.
Proof.
  revert m. induction t as [|a t IH]; simpl; [discriminate|].
  intros m. destruct (max_rowid t) as [m'|].
  - intros [= <-]. destruct (Z.max_spec (id a) m') as [[_ ->] | [_ ->]].
    + destruct (IH m' eq_refl) as [r [Hr Hid]]. exists r. auto.
    + exists a. auto.
  - intros [= <-]. exists a. auto.
Qed.

Lemma rowid_in_use_iff (z : Z) (t : table) :
  rowid_in_use z t = true <-> In z (map id t).
Proof.
  unfold rowid_in_use. rewrite existsb_exists, in_map_iff.
  split; intros [r [H1 H2]]; exists r.
  - apply Z.eqb_eq in H2. auto.
  - split; [exact H2 | now apply Z.eqb_eq].
Qed.

(** The rowid an insert gets is not in use. *)
Lemma next_rowid_unused (random_rowid : option Z) (t : table) (z : Z) :
  next_rowid random_rowid t = Some z -> ~ In z (map id t).
Proof.
  unfold next_rowid. destruct (max_rowid t) as [m|] eqn:Hm.
  - destruct (m <? largest_rowid).
    + intros [= <-] Hin. apply in_map_iff in Hin as [r [Hid Hr]].
      destruct (max_rowid_bounds t r Hr) as [m' [Hm' Hle]].
      rewrite Hm in Hm'. injection Hm' as <-. lia.
    + destruct random_rowid as [z'|]; [|discriminate].
      destruct (rowid_in_use z' t) eqn:Huse;
        [rewrite andb_false_r; discriminate|].
      destruct ((1 <=? z') && (z' <=? largest_random_rowid));
        [|discriminate].
      intros [= <-] Hin. apply rowid_in_use_iff in Hin. congruence.
  - intros _. now rewrite (max_rowid_none t Hm).
Qed.

(** With room for one more, the insert takes the rowid after the largest
    in use, whatever the engine would have drawn. *)
Lemma next_rowid_with_room (random_rowid : option Z) (t : table) :
  room_for 1 t -> next_rowid random_rowid t = Some (after_largest t).
Proof.
  intros Hroom. unfold next_rowid, after_largest.
  destruct (max_rowid t) as [m|] eqn:Hm; [|reflexivity].
  destruct (max_rowid_in_use t m Hm) as [r [Hr Hid]].
  specialize (Hroom r Hr).
  replace (m <? largest_rowid) with true; [reflexivity|].
  symmetry. apply Z.ltb_lt. lia.
Qed.

Lemma after_largest_above (t : table) (r : row) :
  In r t -> id r < after_largest t.
Proof.
  intros Hin. unfold after_largest.
  destruct (max_rowid_bounds t r Hin) as [m [-> Hle]]. lia.
Qed.

(** *** Inserting in rowid order *)



(** A row above every rowid in use goes to the end. *)
Lemma insert_by_rowid_last (r : row) (t : table) :
  (forall x, In x t -> id x < id r) -> insert_by_rowid r t = t ++ [r].
Proof.
  induction t as [|a t IH]; intros H; [reflexivity|]. simpl.
  replace (id r <? id a) with false.
  - f_equal. apply IH. intros x Hx. apply H. now right.
  - symmetry. apply Z.ltb_ge. specialize (H a (or_introl eq_refl)). lia.
Qed.


(** *** Runs *)

(** What [saveLog] does to a live handle that holds the table. *)
Lemma save_live (c : log_call) (t : table) :
  (exists r,
     next_rowid (c_random_rowid c) t = Some (id r) /\
     save c (Live (Some t)) = Live (Some (insert_by_rowid r t)) /\
     ~ In (id r) (map id t) /\ reported r = 0) \/
  (next_rowid (c_random_rowid c) t = None /\
   save c (Live (Some t)) = Live (Some t)).
Proof.
  unfold save, saveLog, db_run, run_on.
  destruct (next_rowid (c_random_rowid c) t) as [z|] eqn:Hz.
  - left.
    exists (new_row z
              {| v_probe_id := text (probe_id_of (c_probe c));
                 v_created_at := text (c_created c);
                 v_status_code := SqlInt (status (c_probeRes c));
                 v_probe_name := opt_text (probe_name_of (c_probe c));
                 v_probe_url := opt_text (config_url (c_probeRes c));
                 v_response_time :=
                   opt_int (config_extraData_responseTime (c_probeRes c));
                 v_error_resp := text (c_errorResp c) |}).
    split; [reflexivity|]. split; [reflexivity|].
    split; [|reflexivity]. now apply (next_rowid_unused _ _ _ Hz).
  - right. split; reflexivity.
Qed.

Lemma step_live (t : option table) (o : op) :
  exists t', step (Live t) o = Live t'.
Proof.
  destruct o as [c| | |ids]; simpl; try (now exists t).
  - unfold save, saveLog, db_run.
    destruct (run_on _ t) as [err t'] eqn:E. now exists t'.
  - unfold setLogsAsReported, db_run.
    destruct (run_on _ t) as [[e|] t'] eqn:E; now exists t'.
Qed.

Lemma run_live (ops : list op) (t : option table) :
  exists t', run ops (Live t) = Live t'.
Proof.
  revert t. induction ops as [|o ops IH]; intros t; simpl.
  - now exists t.
  - destruct (step_live t o) as [t1 ->]. apply IH.
Qed.




(** *** Flushing *)

(** C8, at two runs of the engine: on any open handle and after any calls,
    [flushAllLogs] resolves.  When the engine evaluates
    [CREATE TABLE IF NOT EXISTS] while the table is still there, the table
    is then dropped and not made again: both reads reject with 'no such
    table' and a [saveLog] stores nothing.  When it runs the drop first,
    both reads resolve with no rows and the next row gets the id 1. *)
Theorem C8_flushAllLogs_can_leave_no_table
    (t : option table) (ops : list op) :
  flushAllLogs CreateRunsFirst (run ops (Live t)) =
    (Resolved tt, Live None, []) /\
  getAllLogs (snd (fst (flushAllLogs CreateRunsFirst (run ops (Live t))))) =
    Rejected no_such_table /\
  getUnreportedLogs
    (snd (fst (flushAllLogs CreateRunsFirst (run ops (Live t))))) =
    Rejected no_such_table /\
  (forall c,
     save c (snd (fst (flushAllLogs CreateRunsFirst (run ops (Live t))))) =
     Live None) /\
  flushAllLogs DropRunsFirst (run ops (Live t)) =
    (Resolved tt, Live (Some []), []) /\
  getAllLogs (snd (fst (flushAllLogs DropRunsFirst (run ops (Live t))))) =
    Resolved [] /\
  getUnreportedLogs
    (snd (fst (flushAllLogs DropRunsFirst (run ops (Live t))))) =
    Resolved [] /\
  (forall c, exists r,
     save c (snd (fst (flushAllLogs DropRunsFirst (run ops (Live t))))) =
     Live (Some [r]) /\ id r = 1).
Proof.
  destruct (run_live ops t) as [t' ->].
  assert (H1 : flushAllLogs CreateRunsFirst (Live t') =
               (Resolved tt, Live None, [])) by (now destruct t').
  assert (H2 : flushAllLogs DropRunsFirst (Live t') =
               (Resolved tt, Live (Some []), [])) by (now destruct t').
  rewrite H1, H2. cbn [fst snd].
  repeat (split; [reflexivity|]).
  intros c. eexists. split; reflexivity.
Qed.

(** *** The reported flag along a run *)

Lemma set_reported_twice (r : row) :
  set_reported (set_reported r) = set_reported r.
Proof. reflexivity. Qed.












(** *** JavaScript numbers *)

Lemma js_number_of_safe (z : Z) : safe_integer z -> js_number z = z.
Proof.
  unfold safe_integer, js_number. intros H. cbv zeta.
  replace (Z.log2 (Z.abs z) + 1 <=? 53) with true; [reflexivity|].
  symmetry. apply Z.leb_le.
  destruct (Z.eq_dec (Z.abs z) 0) as [-> | Hne]; [simpl; lia|].
  assert (Hpos : 0 < Z.abs z) by lia.
  assert (Z.log2 (Z.abs z) < 53); [|lia].
  apply Z.log2_lt_pow2; [exact Hpos|].
  change (2 ^ 53) with 9007199254740992. exact H.
Qed.



(** *** What the unreported read returns *)

Lemma getUnreportedLogs_live (t : table) :
  getUnreportedLogs (Live (Some t)) =
  Resolved (map (select_row SelectUnreported) (filter unreported t)).
Proof. reflexivity. Qed.

Lemma select_unreported_id (r : row) :
  prop "id" (select_row SelectUnreported r) = JNum (js_number (id r)).
Proof. reflexivity. Qed.









End HistoryFacts.

(** ** The reporter *)

Module ReporterFacts.

Import Reporter TwoTables Samples.

(** *** Objects without their id *)

Lemma omit_id_has_no_id (o : jsobj) : lookup "id" (omit_id o) = None.
Proof.
  induction o as [|[k v] o IH]; [reflexivity|].
  unfold omit_id in *. cbn [filter fst].
  destruct (String.eqb k "id") eqn:E; cbn [negb lookup]; [exact IH|].
  rewrite String.eqb_sym, E. exact IH.
Qed.

Lemma omit_id_keeps_others (o : jsobj) (k : string) :
  k <> "id" -> lookup k (omit_id o) = lookup k o.
Proof.
  intros Hk. induction o as [|[k' v] o IH]; [reflexivity|].
  unfold omit_id in *. cbn [filter fst].
  destruct (String.eqb k' "id") eqn:E; cbn [negb lookup].
  - apply String.eqb_eq in E. subst k'.
    apply String.eqb_neq in Hk. now rewrite Hk.
  - now rewrite IH.
Qed.

Lemma omit_id_same_but_id (o : jsobj) : same_but_id o (omit_id o).
Proof.
  split; [apply omit_id_has_no_id | intros k; apply omit_id_keeps_others].
Qed.

Lemma map_omit_id (os : list jsobj) : Forall2 same_but_id os (map omit_id os).
Proof.
  induction os as [|o os IH]; simpl; constructor;
    [apply omit_id_same_but_id | exact IH].
Qed.

(** *** The fingerprint *)

Lemma configVersion_explicit (md5Hash : Config -> string) (config : Config)
    (v : string) :
  version config = Some v -> v <> "" -> configVersion md5Hash config = v.
Proof.
  intros Hv Hne. unfold configVersion. rewrite Hv.
  apply String.eqb_neq in Hne. now rewrite Hne.
Qed.

Lemma configVersion_hashed (md5Hash : Config -> string) (config : Config) :
  version config = None \/ version config = Some "" ->
  configVersion md5Hash config = md5Hash config.
Proof. unfold configVersion. intros [-> | ->]; reflexivity. Qed.

(** *** One call of getLogsAndReport *)

Section OneCall.

Context {Store : Type} {api : StoreApi Store}.
Variable md5Hash : Config -> string.
Variable collector : http_post -> http_reply.

(** Without [config.symon] the call does nothing. *)
Lemma getLogsAndReport_without_symon (config : Config) (w : world Store) :
  symon config = None -> getLogsAndReport md5Hash collector config w = (Resolved tt, w).
Proof. intros H. unfold getLogsAndReport. now rewrite H. Qed.

(** Everything thrown inside the [try] is caught: the call never rejects. *)
Lemma getLogsAndReport_resolves (config : Config) (w : world Store) :
  fst (getLogsAndReport md5Hash collector config w) = Resolved tt.
Proof.
  unfold getLogsAndReport. destruct (symon config) as [sc|]; [|reflexivity].
  unfold try_catch, bind, reading.
  destruct (getUnreportedLogs (store w)) as [batch|e]; [|reflexivity].
  unfold report, axios_post.
  destruct (axios_settle _) as [x|e]; [|reflexivity].
  unfold Promise_all, writing. cbn [store posts logged].
  destruct (setRequestLogAsReported _ _) as [r1 s1]. cbn [store posts logged].
  destruct (setNotificationLogAsReported _ _) as [r2 s2].
  destruct r1 as [[]|e1], r2 as [[]|e2]; reflexivity.
Qed.

(** With [config.symon] and a batch read, the post built from the batch is
    made, whatever comes next. *)
Lemma getLogsAndReport_posts (config : Config) (sc : SymonConfig)
    (w : world Store) (batch : UnreportedLog) :
  symon config = Some sc ->
  getUnreportedLogs (store w) = Resolved batch ->
  posts (snd (getLogsAndReport md5Hash collector config w)) =
  posts w ++ [post_for md5Hash config sc batch].
Proof.
  intros Hs Hb. unfold getLogsAndReport. rewrite Hs.
  unfold try_catch, bind, reading. rewrite Hb.
  unfold report, axios_post, post_for.
  destruct (axios_settle _) as [x|e]; [|reflexivity].
  unfold Promise_all, writing. cbn [store posts logged].
  destruct (setRequestLogAsReported _ _) as [r1 s1]. cbn [store posts logged].
  destruct (setNotificationLogAsReported _ _) as [r2 s2].
  destruct r1 as [[]|e1], r2 as [[]|e2]; reflexivity.
Qed.

(** When the post is rejected nothing is marked and the reason is logged. *)
Lemma getLogsAndReport_rejected_post (config : Config) (sc : SymonConfig)
    (w : world Store) (batch : UnreportedLog) (reason : string) :
  symon config = Some sc ->
  getUnreportedLogs (store w) = Resolved batch ->
  axios_settle (collector (post_for md5Hash config sc batch)) = Rejected reason ->
  getLogsAndReport md5Hash collector config w =
  (Resolved tt,
   mkWorld (store w)
           (posts w ++ [post_for md5Hash config sc batch])
           (logged w ++ [mkLog LWarn [(warning_prefix ++ reason)%string]])).
Proof.
  intros Hs Hb Hr. unfold getLogsAndReport. rewrite Hs.
  unfold try_catch, bind, reading. rewrite Hb.
  unfold report, axios_post. fold (post_for md5Hash config sc batch). rewrite Hr.
  reflexivity.
Qed.

Lemma upload_fails_rejected (r : http_reply) :
  upload_fails r -> exists reason, axios_settle r = Rejected reason.
Proof.
  destruct r as [code data|reason]; simpl.
  - intros ->. eexists. reflexivity.
  - intros _. now exists reason.
Qed.

End OneCall.

Lemma warning_names_symon (reason : string) :
  contains "Can't report history to Symon" (warning_prefix ++ reason)%string.
Proof. exists " ›   Warning: ", (". " ++ reason)%string. reflexivity. Qed.

(** *** The claims about a report *)

Section Reports.

Context {Store : Type} {api : StoreApi Store}.
Variable md5Hash : Config -> string.
Variable collector : http_post -> http_reply.

(** C1 (amended): when the batch read is empty, [getLogsAndReport] still
    resolves with no value (there is no NoOp outcome to return); without
    [config.symon] it does nothing at all, and with it exactly one post is
    made, to the report endpoint, carrying empty [requests] and
    [notifications]. *)
Theorem C1_empty_batch_is_posted_when_symon_is_set
    (config : Config) (w : world Store) :
  getUnreportedLogs (store w) = Resolved (mkUnreported [] []) ->
  fst (getLogsAndReport md5Hash collector config w) = Resolved tt /\
  (symon config = None ->
   getLogsAndReport md5Hash collector config w = (Resolved tt, w)) /\
  (forall sc, symon config = Some sc ->
   posts (snd (getLogsAndReport md5Hash collector config w)) =
   posts w ++ [report_post (symon_url sc) (symon_key sc) (symon_id sc)
                           (configVersion md5Hash config) [] []]).
Proof.
  intros Hb. split; [apply getLogsAndReport_resolves|].
  split; [apply getLogsAndReport_without_symon|].
  intros sc Hs.
  now rewrite (getLogsAndReport_posts md5Hash collector config sc w _ Hs Hb).
Qed.

(** C2: when [config.symon] is set, the batch was read and the upload fails
    (no response, or a response that is not 2xx), [getLogsAndReport]
    resolves, so the failure does not reach the caller; the store is the one
    it started from, so the next read returns the same batch; the post was
    made once; and one warning was logged, whose text contains
    "Can't report history to Symon" followed by the failure's message. *)
Theorem C2_failed_upload_marks_nothing_and_warns
    (config : Config) (sc : SymonConfig) (w : world Store)
    (batch : UnreportedLog) :
  symon config = Some sc ->
  getUnreportedLogs (store w) = Resolved batch ->
  upload_fails (collector (post_for md5Hash config sc batch)) ->
  exists reason,
    getLogsAndReport md5Hash collector config w =
    (Resolved tt,
     mkWorld (store w)
             (posts w ++ [post_for md5Hash config sc batch])
             (logged w ++ [mkLog LWarn [(warning_prefix ++ reason)%string]])) /\
    contains "Can't report history to Symon"
             (warning_prefix ++ reason)%string /\
    getUnreportedLogs
      (store (snd (getLogsAndReport md5Hash collector config w))) =
    Resolved batch.
Proof.
  intros Hs Hb Hfail.
  destruct (upload_fails_rejected _ Hfail) as [reason Hr].
  exists reason.
  rewrite (getLogsAndReport_rejected_post md5Hash collector config sc w
             batch reason Hs Hb Hr).
  split; [reflexivity|]. split; [apply warning_names_symon | exact Hb].
Qed.

(** C6: when [config.symon] is set and the batch was read, the body of the
    post holds, in order, one object per request row and one per
    notification row; each has no [id] property and, for every other
    property name, exactly what the row has under that name. *)
Theorem C6_posted_rows_are_the_rows_without_id
    (config : Config) (sc : SymonConfig) (w : world Store)
    (batch : UnreportedLog) :
  symon config = Some sc ->
  getUnreportedLogs (store w) = Resolved batch ->
  exists p,
    posts (snd (getLogsAndReport md5Hash collector config w)) =
    posts w ++ [p] /\
    Forall2 same_but_id (requests batch) (data_requests (post_body p)) /\
    Forall2 same_but_id (notifications batch)
            (data_notifications (post_body p)).
Proof.
  intros Hs Hb. exists (post_for md5Hash config sc batch).
  split; [now apply getLogsAndReport_posts|].
  split; apply map_omit_id.
Qed.

(** C7 (amended): the fingerprint is [config.version] when that is a string
    other than the empty one, and [md5Hash(config)] when the version is
    absent or the empty string; it is what the post carries as
    [config_version], and it depends on the configuration alone. *)
Theorem C7_configVersion_is_the_version_unless_empty (config : Config) :
  (forall v, version config = Some v -> v <> "" ->
     configVersion md5Hash config = v) /\
  (version config = None \/ version config = Some "" ->
     configVersion md5Hash config = md5Hash config) /\
  (forall sc (w : world Store) batch,
     symon config = Some sc ->
     getUnreportedLogs (store w) = Resolved batch ->
     exists p,
       posts (snd (getLogsAndReport md5Hash collector config w)) =
       posts w ++ [p] /\
       config_version (post_body p) = configVersion md5Hash config).
Proof.
  split; [intros v; apply configVersion_explicit|].
  split; [apply configVersion_hashed|].
  intros sc w batch Hs Hb. exists (post_for md5Hash config sc batch).
  split; [now apply getLogsAndReport_posts | reflexivity].
Qed.

End Reports.

(** *** The claims on the sample data *)

(** C1, as the code has it: both sequences of the batch are empty, the
    collector is configured, and one post goes out. *)
Lemma C1_empty_batch_makes_one_post :
  getUnreportedLogs empty_store = Resolved (mkUnreported [] []) /\
  posts (snd (getLogsAndReport const_hash accepting config_versioned
                               (fresh empty_store))) =
  [report_post "https://symon.example" "secret" "instance-1" "1.0.0" [] []].
Proof. split; reflexivity. Qed.

Lemma C1_witness :
  fst (getLogsAndReport const_hash accepting config_versioned
                        (fresh empty_store)) = Resolved tt /\
  (symon config_versioned = None ->
   getLogsAndReport const_hash accepting config_versioned
                    (fresh empty_store) =
   (Resolved tt, fresh empty_store)) /\
  (forall sc, symon config_versioned = Some sc ->
   posts (snd (getLogsAndReport const_hash accepting config_versioned
                                (fresh empty_store))) =
   posts (fresh empty_store) ++
   [report_post (symon_url sc) (symon_key sc) (symon_id sc)
                (configVersion const_hash config_versioned) [] []]).
Proof.
  apply (C1_empty_batch_is_posted_when_symon_is_set
           const_hash accepting config_versioned (fresh empty_store)).
  reflexivity.
Defined.

(** The batch read from [store1]. *)
Lemma store1_batch :
  getUnreportedLogs store1 =
  Resolved (mkUnreported (listUnreported [row1]) (listUnreported [row2])).
Proof. reflexivity. Qed.

Lemma C2_witness :
  exists reason,
    getLogsAndReport const_hash failing config_versioned (fresh store1) =
    (Resolved tt,
     mkWorld store1
             ([] ++ [post_for const_hash config_versioned symon1
                       (mkUnreported (listUnreported [row1])
                                     (listUnreported [row2]))])
             ([] ++ [mkLog LWarn [(warning_prefix ++ reason)%string]])) /\
    contains "Can't report history to Symon"
             (warning_prefix ++ reason)%string /\
    getUnreportedLogs
      (store (snd (getLogsAndReport const_hash failing config_versioned
                                    (fresh store1)))) =
    Resolved (mkUnreported (listUnreported [row1]) (listUnreported [row2])).
Proof.
  apply (C2_failed_upload_marks_nothing_and_warns
           const_hash failing config_versioned symon1 (fresh store1)
           (mkUnreported (listUnreported [row1]) (listUnreported [row2]))).
  - reflexivity.
  - reflexivity.
  - reflexivity.
Defined.

Lemma C6_witness :
  exists p,
    posts (snd (getLogsAndReport const_hash accepting config_versioned
                                 (fresh store1))) =
    posts (fresh store1) ++ [p] /\
    Forall2 same_but_id (listUnreported [row1])
            (data_requests (post_body p)) /\
    Forall2 same_but_id (listUnreported [row2])
            (data_notifications (post_body p)).
Proof.
  apply (C6_posted_rows_are_the_rows_without_id
           const_hash accepting config_versioned symon1 (fresh store1)
           (mkUnreported (listUnreported [row1]) (listUnreported [row2]))).
  - reflexivity.
  - reflexivity.
Defined.

(** C7, as the code has it: the configuration carries the version string
    [""], and the fingerprint is the hash; so no function that returns
    32-character digests makes the fingerprint equal the version string
    whenever one is present. *)
Lemma C7_empty_version_is_replaced_by_the_hash :
  version config_empty_version = Some "" /\
  configVersion const_hash config_empty_version =
    const_hash config_empty_version /\
  ~ (forall (md5Hash : Config -> string) (config : Config) (v : string),
       String.length (md5Hash config) = 32%nat ->
       version config = Some v ->
       configVersion md5Hash config = v).
Proof.
  split; [reflexivity|]. split; [reflexivity|].
  intros H.
  specialize (H const_hash config_empty_version "" eq_refl eq_refl).
  discriminate H.
Qed.

End ReporterFacts.

(** ** More on the store of history.ts *)

Module HistoryLaws.

Import History Samples Sessions HistoryFacts.

(** *** saveLog *)

Lemma getUnreportedLogs_resolved (db : conn) (objs : list jsobj) :
  getUnreportedLogs db = Resolved objs ->
  exists t,
    rows_of db = t /\
    objs = map (select_row SelectUnreported) (filter unreported t).
Proof.
  destruct db as [[t|]|msg|[t|]]; simpl; intros H; try discriminate;
    exists t; (split; [reflexivity|]); now injection H.
Qed.

Lemma filter_true (t : table) : filter (where_clause SelectAll) t = t.
Proof. induction t as [|r t IH]; simpl; [reflexivity | now f_equal]. Qed.

(** X1: The insert and the read agree: on a handle open for writing whose
    table has room for one more rowid, [saveLog] resolves and logs
    nothing; the row it adds goes to the end of the table under a rowid
    above every rowid in use, and the next unreported read is the old batch
    followed by one object holding the values saved.  [requestIndex] is
    not stored; a missing name, url or response time is read back as
    null. *)
Theorem saveLog_is_read_back
    (probe : Probe) (probeRes : AxiosResponseWithExtraData)
    (requestIndex : Z) (errorResp created : string)
    (random_rowid : option Z) (t : table) :
  room_for 1 t ->
  exists r,
    saveLog probe probeRes requestIndex errorResp created random_rowid
            (Live (Some t)) =
      (Resolved tt, Live (Some (t ++ [r])), []) /\
    (forall x, In x t -> id x < id r) /\
    getUnreportedLogs (Live (Some (t ++ [r]))) =
      Resolved (map (select_row SelectUnreported) (filter unreported t) ++
                [saved_object (id r) probe probeRes errorResp created]).
Proof.
  intros Hroom.
  exists (new_row (after_largest t)
            {| v_probe_id := text (probe_id_of probe);
               v_created_at := text created;
               v_status_code := SqlInt (status probeRes);
               v_probe_name := opt_text (probe_name_of probe);
               v_probe_url := opt_text (config_url probeRes);
               v_response_time :=
                 opt_int (config_extraData_responseTime probeRes);
               v_error_resp := text errorResp |}).
  split; [|split].
  - unfold saveLog, db_run, run_on.
    rewrite (next_rowid_with_room random_rowid t Hroom).
    rewrite insert_by_rowid_last; [reflexivity|].
    intros x Hx. now apply after_largest_above.
  - intros x Hx. now apply after_largest_above.
  - rewrite getUnreportedLogs_live, filter_app, map_app. reflexivity.
Qed.

Lemma saveLog_is_read_back_witness :
  exists r,
    saveLog (c_probe call1) (c_probeRes call1) 7 "" "2021-05-01T10:00:20.000Z"
            None (Live (Some [set_reported row1; row2])) =
      (Resolved tt, Live (Some ([set_reported row1; row2] ++ [r])), []) /\
    (forall x, In x [set_reported row1; row2] -> id x < id r) /\
    getUnreportedLogs (Live (Some ([set_reported row1; row2] ++ [r]))) =
      Resolved (map (select_row SelectUnreported)
                    (filter unreported [set_reported row1; row2]) ++
                [saved_object (id r) (c_probe call1) (c_probeRes call1) ""
                              "2021-05-01T10:00:20.000Z"]).
Proof.
  apply (saveLog_is_read_back
           (c_probe call1) (c_probeRes call1) 7 "" "2021-05-01T10:00:20.000Z"
           None [set_reported row1; row2]).
  intros x [<- | [<- | []]]; unfold largest_rowid; simpl; lia.
Defined.

(** X2: A failed insert is swallowed: on a handle that is not open for
    writing on a database with the table (the table is missing, the
    database is write-protected, the handle was closed, the file is no
    database), [saveLog] still resolves, the handle is as it was and
    nothing was stored; the engine's message is logged once at level info.
    The same happens on a full table, where the engine finds no rowid. *)
Theorem saveLog_failure_is_only_logged
    (probe : Probe) (probeRes : AxiosResponseWithExtraData)
    (requestIndex : Z) (errorResp created : string)
    (random_rowid : option Z) (db : conn) :
  (forall t, db = Live (Some t) -> next_rowid random_rowid t = None) ->
  exists message,
    saveLog probe probeRes requestIndex errorResp created random_rowid db =
      (Resolved tt, db, [insert_failed message]) /\
    (db = Live None -> message = no_such_table) /\
    (db = ReadOnly None -> message = no_such_table) /\
    (forall t, db = ReadOnly (Some t) -> message = read_only_message) /\
    (forall msg, db = Dead msg -> message = msg) /\
    (forall t, db = Live (Some t) -> message = full_message).
Proof.
  intros Hfull. destruct db as [[t|]|msg|[t|]].
  - exists full_message. split.
    + unfold saveLog, db_run, run_on. now rewrite (Hfull t eq_refl).
    + repeat split; try discriminate.
  - exists no_such_table. split; [reflexivity|].
    repeat split; discriminate.
  - exists msg. split; [reflexivity|].
    repeat split; try discriminate. now intros m [= ->].
  - exists read_only_message. split; [reflexivity|].
    repeat split; discriminate.
  - exists no_such_table. split; [reflexivity|].
    repeat split; discriminate.
Qed.

Lemma saveLog_failure_is_only_logged_witness :
  exists message,
    saveLog (c_probe call1) (c_probeRes call1) 0 "" "2021-05-01T10:00:20.000Z"
            None (Live (Some [row_last])) =
      (Resolved tt, Live (Some [row_last]), [insert_failed message]) /\
    (Live (Some [row_last]) = Live None -> message = no_such_table) /\
    (Live (Some [row_last]) = ReadOnly None -> message = no_such_table) /\
    (forall t, Live (Some [row_last]) = ReadOnly (Some t) ->
               message = read_only_message) /\
    (forall msg, Live (Some [row_last]) = Dead msg -> message = msg) /\
    (forall t, Live (Some [row_last]) = Live (Some t) ->
               message = full_message).
Proof.
  apply (saveLog_failure_is_only_logged
           (c_probe call1) (c_probeRes call1) 0 "" "2021-05-01T10:00:20.000Z"
           None (Live (Some [row_last]))).
  intros t [= <-]. reflexivity.
Defined.

(** *** Marks and reads *)

Lemma row_ids_select (q : query) (t : table) :
  row_ids (map (select_row q) t) = map (fun r => js_number (id r)) t.
Proof.
  induction t as [|r t IH]; [reflexivity|].
  cbn [map]. rewrite <- IH. now destruct q.
Qed.

Lemma select_all_set_reported (r : row) :
  select_row SelectAll (set_reported r) = select_row SelectAll r.
Proof. reflexivity. Qed.

Lemma select_all_update_reported (ids : list Z) (t : table) :
  map (select_row SelectAll) (update_reported ids t) =
  map (select_row SelectAll) t.
Proof.
  unfold update_reported. rewrite map_map. apply map_ext.
  intros r. now destruct (id_in ids r).
Qed.

Lemma object_listed_safe (ids : list Z) (r : row) :
  safe_integer (id r) ->
  object_listed ids (select_row SelectUnreported r) = id_in ids r.
Proof.
  intros Hsafe. unfold object_listed. rewrite select_unreported_id.
  rewrite (js_number_of_safe _ Hsafe). reflexivity.
Qed.

Lemma unreported_after_update (ids : list Z) (t : table) :
  safe_ids t ->
  map (select_row SelectUnreported)
      (filter unreported (update_reported ids t)) =
  filter (fun o => negb (object_listed ids o))
         (map (select_row SelectUnreported) (filter unreported t)).
Proof.
  unfold update_reported.
  induction t as [|r t IH]; intros Hsafe; [reflexivity|].
  assert (Ht : safe_ids t) by (intros x Hx; apply Hsafe; now right).
  specialize (IH Ht).
  pose proof (object_listed_safe ids r (Hsafe r (or_introl eq_refl))) as Hr.
  cbn [map filter]. destruct (id_in ids r) eqn:Ein.
  - change (unreported (set_reported r)) with false. cbn iota.
    destruct (unreported r); [|exact IH].
    cbn [map filter]. rewrite Hr. exact IH.
  - destruct (unreported r); [|exact IH].
    cbn [map filter]. rewrite Hr. cbn [negb]. now f_equal.
Qed.

Lemma getAllLogs_after_mark (ids : list Z) (db : conn) :
  getAllLogs (snd (setLogsAsReported ids db)) = getAllLogs db.
Proof.
  destruct db as [[t|]|msg|[t|]]; try reflexivity.
  simpl. now rewrite !filter_true, select_all_update_reported.
Qed.

(** X3: The mark changes what the unreported read returns and nothing of what
    [getAllLogs] returns: where every rowid of the table is an integer that
    a number holds exactly, after [setLogsAsReported ids] [getAllLogs]
    resolves as before, and the unreported batch is the batch from before
    without the objects whose id is in [ids], in the same order. *)
Theorem setLogsAsReported_filters_the_batch_only
    (ids : list Z) (t : table) :
  safe_ids t ->
  getAllLogs (snd (setLogsAsReported ids (Live (Some t)))) =
    getAllLogs (Live (Some t)) /\
  getUnreportedLogs (snd (setLogsAsReported ids (Live (Some t)))) =
    Resolved (filter (fun o => negb (object_listed ids o))
                     (map (select_row SelectUnreported)
                          (filter unreported t))).
Proof.
  intros Hsafe. split; [apply getAllLogs_after_mark|].
  rewrite setLogsAsReported_live. cbn [snd].
  rewrite getUnreportedLogs_live. f_equal.
  now apply unreported_after_update.
Qed.

Lemma setLogsAsReported_filters_the_batch_only_witness :
  getAllLogs (snd (setLogsAsReported [2; 5] (Live (Some [row1; row2])))) =
    getAllLogs (Live (Some [row1; row2])) /\
  getUnreportedLogs
    (snd (setLogsAsReported [2; 5] (Live (Some [row1; row2])))) =
    Resolved (filter (fun o => negb (object_listed [2; 5] o))
                     (map (select_row SelectUnreported)
                          (filter unreported [row1; row2]))).
Proof.
  apply (setLogsAsReported_filters_the_batch_only [2; 5] [row1; row2]).
  intros x [<- | [<- | []]]; unfold safe_integer; simpl; lia.
Defined.

Lemma filter_all_listed (ids : list Z) (objs : list jsobj) :
  (forall o, In o objs -> object_listed ids o = true) ->
  filter (fun o => negb (object_listed ids o)) objs = [].
Proof.
  induction objs as [|o objs IH]; intros H; [reflexivity|].
  cbn [filter]. rewrite (H o (or_introl eq_refl)). cbn [negb].
  apply IH. intros o' Ho'. apply H. now right.
Qed.

(** X4: One reporting cycle on the table: on a handle open for writing,
    where every rowid of the table is an integer that a number holds
    exactly, marking the ids of the objects that the unreported read
    returned resolves, and leaves the next unreported read empty and
    [getAllLogs] as it was. *)
Theorem marking_the_batch_empties_it (t : table) (batch : list jsobj) :
  safe_ids t ->
  getUnreportedLogs (Live (Some t)) = Resolved batch ->
  exists db',
    setLogsAsReported (row_ids batch) (Live (Some t)) = (Resolved tt, db') /\
    getUnreportedLogs db' = Resolved [] /\
    getAllLogs db' = getAllLogs (Live (Some t)).
Proof.
  intros Hsafe H.
  pose proof (getAllLogs_after_mark (row_ids batch) (Live (Some t))) as Hall.
  rewrite getUnreportedLogs_live in H. injection H as <-.
  rewrite setLogsAsReported_live in *. cbn [snd] in *.
  eexists. split; [reflexivity|]. split; [|exact Hall].
  rewrite getUnreportedLogs_live, (unreported_after_update _ _ Hsafe).
  f_equal. apply filter_all_listed.
  intros o Ho. apply in_map_iff in Ho as [r [<- Hr]].
  assert (Hrt : In r t) by (apply filter_In in Hr; tauto).
  rewrite (object_listed_safe _ _ (Hsafe r Hrt)).
  apply id_in_iff. rewrite row_ids_select.
  apply in_map_iff. exists r. split; [|exact Hr].
  apply js_number_of_safe. now apply Hsafe.
Qed.

Lemma marking_the_batch_empties_it_witness :
  exists db',
    setLogsAsReported
      (row_ids [select_row SelectUnreported row2])
      (Live (Some [set_reported row1; row2])) = (Resolved tt, db') /\
    getUnreportedLogs db' = Resolved [] /\
    getAllLogs db' = getAllLogs (Live (Some [set_reported row1; row2])).
Proof.
  apply (marking_the_batch_empties_it
           [set_reported row1; row2]
           [select_row SelectUnreported row2]).
  - intros x [<- | [<- | []]]; unfold safe_integer; simpl; lia.
  - reflexivity.
Defined.

(** *** Marks compose *)

Lemma id_in_app (ids1 ids2 : list Z) (r : row) :
  id_in (ids1 ++ ids2) r = id_in ids1 r || id_in ids2 r.
Proof. unfold id_in. apply existsb_app. Qed.

Lemma update_reported_app (ids1 ids2 : list Z) (t : table) :
  update_reported ids2 (update_reported ids1 t) =
  update_reported (ids1 ++ ids2) t.
Proof.
  unfold update_reported. rewrite map_map. apply map_ext. intros r.
  rewrite id_in_app. destruct (id_in ids1 r) eqn:E1; cbn [orb].
  - change (id_in ids2 (set_reported r)) with (id_in ids2 r).
    now destruct (id_in ids2 r).
  - reflexivity.
Qed.

Lemma update_reported_same_ids (a b : list Z) (t : table) :
  (forall r, id_in a r = id_in b r) ->
  update_reported a t = update_reported b t.
Proof.
  intros H. unfold update_reported. apply map_ext. intros r. now rewrite H.
Qed.

Lemma mark_handle (ids : list Z) (db : conn) :
  snd (setLogsAsReported ids db) =
  match db with
  | Live (Some t) => Live (Some (update_reported ids t))
  | _ => db
  end.
Proof. now destruct db as [[t|]|msg|[t|]]. Qed.

(** X5: Marks add up: on any handle, marking [ids1] and then [ids2] leaves what
    one mark of [ids1 ++ ids2] leaves; so the order of two marks does not
    matter and marking the same ids again changes nothing. *)
Theorem setLogsAsReported_marks_add_up (ids1 ids2 : list Z) (db : conn) :
  snd (setLogsAsReported ids2 (snd (setLogsAsReported ids1 db))) =
    snd (setLogsAsReported (ids1 ++ ids2) db) /\
  snd (setLogsAsReported ids2 (snd (setLogsAsReported ids1 db))) =
    snd (setLogsAsReported ids1 (snd (setLogsAsReported ids2 db))) /\
  snd (setLogsAsReported ids1 (snd (setLogsAsReported ids1 db))) =
    snd (setLogsAsReported ids1 db).
Proof.
  rewrite !mark_handle.
  destruct db as [[t|]|msg|[t|]]; try (repeat split; fail).
  rewrite !update_reported_app. repeat split; f_equal; f_equal.
  - apply update_reported_same_ids. intros r.
    rewrite !id_in_app. apply orb_comm.
  - apply update_reported_same_ids. intros r.
    rewrite id_in_app. apply orb_diag.
Qed.

(** *** Ids along a session *)

Lemma max_rowid_app (t : table) (r : row) :
  max_rowid (t ++ [r]) =
  Some (match max_rowid t with
        | None => id r
        | Some m => Z.max m (id r)
        end).
Proof.
  induction t as [|a t IH]; simpl; [reflexivity|].
  rewrite IH. destruct (max_rowid t) as [m|]; f_equal; lia.
Qed.

Lemma after_largest_of_seq (t : table) (n : nat) :
  map id t = map Z.of_nat (seq 1 n) -> after_largest t = Z.of_nat n + 1.
Proof.
  revert t. induction n as [|n IH]; intros t H.
  - destruct t; [reflexivity | discriminate].
  - rewrite seq_S, map_app in H. cbn [map Nat.add] in H.
    apply map_eq_app in H as [t0 [l [-> [H0 Hl]]]].
    destruct l as [|r [|r' l]]; try discriminate.
    injection Hl as Hr. specialize (IH t0 H0).
    unfold after_largest in *. rewrite max_rowid_app.
    destruct (max_rowid t0) as [m|]; lia.
Qed.

Lemma room_of_seq (t : table) (n : nat) :
  map id t = map Z.of_nat (seq 1 n) ->
  Z.of_nat n < largest_rowid -> room_for 1 t.
Proof.
  intros H Hn r Hr.
  assert (Hin : In (id r) (map Z.of_nat (seq 1 n)))
    by (rewrite <- H; now apply in_map).
  apply in_map_iff in Hin as [k [Hk Hseq]]. apply in_seq in Hseq. lia.
Qed.

Lemma run_ids (ops : list op) (t : table) (n : nat) :
  map id t = map Z.of_nat (seq 1 n) ->
  Z.of_nat (n + saves ops) < largest_rowid ->
  exists t',
    run ops (Live (Some t)) = Live (Some t') /\
    map id t' = map Z.of_nat (seq 1 (n + saves ops)).
Proof.
  revert t n. induction ops as [|o ops IH]; intros t n H Hn.
  - exists t. split; [reflexivity|].
    unfold saves. cbn [filter List.length]. now rewrite Nat.add_0_r.
  - unfold run in *. cbn [fold_left].
    destruct o as [c| | |ids].
    + assert (Hs : saves (OpSaveLog c :: ops) = S (saves ops)) by reflexivity.
      rewrite Hs in *.
      assert (Hroom : room_for 1 t) by (apply (room_of_seq t n H); lia).
      destruct (save_live c t) as [[r [Hnext [Hsave _]]] | [Hnext _]].
      * rewrite (next_rowid_with_room _ t Hroom) in Hnext.
        injection Hnext as Hid.
        cbn [step]. rewrite Hsave.
        rewrite insert_by_rowid_last.
        2:{ intros x Hx. rewrite <- Hid. now apply after_largest_above. }
        replace (n + S (saves ops))%nat with (S n + saves ops)%nat by lia.
        apply IH; [|lia].
        rewrite map_app, seq_S, map_app, H. cbn [map Nat.add].
        rewrite <- Hid, (after_largest_of_seq t n H). do 2 f_equal. lia.
      * rewrite (next_rowid_with_room _ t Hroom) in Hnext. discriminate.
    + cbn [step]. now apply IH.
    + cbn [step]. now apply IH.
    + cbn [step]. rewrite setLogsAsReported_live. cbn [snd].
      apply IH; [|exact Hn]. now rewrite update_reported_ids.
Qed.

(** X6: Rowids count the inserts: on the empty table that [createTable]
    makes in a new file, after any sequence of [saveLog], [getAllLogs],
    [getUnreportedLogs] and [setLogsAsReported] calls with fewer inserts
    than there are rowids, the table holds the ids 1, 2, ..., n in this
    order, n being the number of [saveLog] calls, whatever the marks
    were. *)
Theorem ids_count_the_saves (ops : list op) :
  Z.of_nat (saves ops) < largest_rowid ->
  handle (openLogfile_callback (snd (openLogfile NoFile))) =
    Some (Live (Some [])) /\
  exists t,
    run ops (Live (Some [])) = Live (Some t) /\
    map id t = map Z.of_nat (seq 1 (saves ops)).
Proof.
  intros Hn. split; [reflexivity|].
  apply (run_ids ops [] 0 eq_refl). exact Hn.
Qed.

Lemma ids_count_the_saves_witness :
  handle (openLogfile_callback (snd (openLogfile NoFile))) =
    Some (Live (Some [])) /\
  exists t,
    run [OpSaveLog call1; OpSetLogsAsReported [1]; OpSaveLog call1;
         OpGetUnreportedLogs]
        (Live (Some [])) = Live (Some t) /\
    map id t =
    map Z.of_nat
        (seq 1 (saves [OpSaveLog call1; OpSetLogsAsReported [1];
                       OpSaveLog call1; OpGetUnreportedLogs])).
Proof.
  apply (ids_count_the_saves
           [OpSaveLog call1; OpSetLogsAsReported [1]; OpSaveLog call1;
            OpGetUnreportedLogs]).
  unfold largest_rowid. simpl. lia.
Defined.

End HistoryLaws.

(** ** More on the reporter *)

Module ReporterPaths.

Import Reporter TwoTables Samples Handshake ReporterFacts.

Section Paths.

Context {Store : Type} {api : StoreApi Store}.
Variable md5Hash : Config -> string.
Variable collector : http_post -> http_reply.

(** The call when the post was accepted: both marks are made, the request
    table first, and the first rejection, if any, is what gets logged. *)
Lemma getLogsAndReport_accepted_post (config : Config) (sc : SymonConfig)
    (w : world Store) (batch : UnreportedLog) (data : SymonResponse) :
  symon config = Some sc ->
  getUnreportedLogs (store w) = Resolved batch ->
  axios_settle (collector (post_for md5Hash config sc batch)) = Resolved data ->
  getLogsAndReport md5Hash collector config w =
  (Resolved tt,
   mkWorld
     (snd (setNotificationLogAsReported
             (map id_of (notifications batch))
             (snd (setRequestLogAsReported
                     (map id_of (requests batch)) (store w)))))
     (posts w ++ [post_for md5Hash config sc batch])
     (logged w ++
      match fst (setRequestLogAsReported
                   (map id_of (requests batch)) (store w)),
            fst (setNotificationLogAsReported
                   (map id_of (notifications batch))
                   (snd (setRequestLogAsReported
                           (map id_of (requests batch)) (store w)))) with
      | Resolved _, Resolved _ => []
      | Rejected e, _ => [warned e]
      | Resolved _, Rejected e => [warned e]
      end)).
Proof.
  intros Hs Hb Hr. unfold getLogsAndReport. rewrite Hs.
  unfold try_catch, bind, reading. rewrite Hb.
  unfold report, axios_post. fold (post_for md5Hash config sc batch).
  rewrite Hr. unfold Promise_all, writing. cbn [store posts logged].
  destruct (setRequestLogAsReported _ _) as [r1 s1]. cbn [store posts logged fst snd].
  destruct (setNotificationLogAsReported _ _) as [r2 s2]. cbn [fst snd].
  destruct r1 as [[]|e1], r2 as [[]|e2]; cbn; rewrite ?app_nil_r; reflexivity.
Qed.

Lemma getLogsAndReport_rejected_read (config : Config) (sc : SymonConfig)
    (w : world Store) (e : string) :
  symon config = Some sc ->
  getUnreportedLogs (store w) = Rejected e ->
  getLogsAndReport md5Hash collector config w =
  (Resolved tt, mkWorld (store w) (posts w) (logged w ++ [warned e])).
Proof.
  intros Hs Hb. unfold getLogsAndReport. rewrite Hs.
  unfold try_catch, bind, reading. now rewrite Hb.
Qed.

(** X11: When the unreported read fails, nothing is sent: with [config.symon]
    set and [getUnreportedLogs] rejecting, [getLogsAndReport] resolves,
    makes no post, leaves the store as it was and logs one warning, the
    same line as for a failed upload, with the read's message. *)
Theorem failed_read_posts_nothing (config : Config) (sc : SymonConfig)
    (w : world Store) (e : string) :
  symon config = Some sc ->
  getUnreportedLogs (store w) = Rejected e ->
  getLogsAndReport md5Hash collector config w =
    (Resolved tt, mkWorld (store w) (posts w) (logged w ++ [warned e])) /\
  contains "Can't report history to Symon" (warning_prefix ++ e)%string.
Proof.
  intros Hs Hb.
  split; [exact (getLogsAndReport_rejected_read config sc w e Hs Hb)|].
  apply warning_names_symon.
Qed.


(** X13: A failed upload is sent again: when a call failed to upload, the next
    call, whatever the collector answers then, posts the very same request,
    so the rows of the batch reach the collector's endpoint at least twice
    before they can be marked. *)
Theorem failed_upload_is_posted_again (config : Config) (sc : SymonConfig)
    (w : world Store) (batch : UnreportedLog)
    (collector' : http_post -> http_reply) :
  symon config = Some sc ->
  getUnreportedLogs (store w) = Resolved batch ->
  upload_fails (collector (post_for md5Hash config sc batch)) ->
  posts (snd (getLogsAndReport md5Hash collector' config
                (snd (getLogsAndReport md5Hash collector config w)))) =
  posts w ++ [post_for md5Hash config sc batch;
              post_for md5Hash config sc batch].
Proof.
  intros Hs Hb Hfail.
  destruct (upload_fails_rejected _ Hfail) as [reason Hr].
  rewrite (getLogsAndReport_rejected_post md5Hash collector config sc w
             batch reason Hs Hb Hr).
  cbn [snd].
  rewrite (getLogsAndReport_posts md5Hash collector' config sc _ batch Hs);
    [|exact Hb].
  cbn [posts]. now rewrite <- app_assoc.
Qed.

(** X14: Whatever happens, one call makes at most one post and logs at most one
    line: the posts grow by nothing or by the report of the batch read, sent
    to the configured url followed by /report under the configured key, and
    the log grows by nothing or by one warning of a failed report. *)
Theorem one_call_posts_and_warns_at_most_once (config : Config)
    (w : world Store) :
  (posts (snd (getLogsAndReport md5Hash collector config w)) = posts w \/
   exists sc batch,
     symon config = Some sc /\
     getUnreportedLogs (store w) = Resolved batch /\
     posts (snd (getLogsAndReport md5Hash collector config w)) =
       posts w ++ [post_for md5Hash config sc batch] /\
     post_url (post_for md5Hash config sc batch) =
       (symon_url sc ++ "/report")%string /\
     In ("x-api-key", symon_key sc)
        (post_headers (post_for md5Hash config sc batch))) /\
  (logged (snd (getLogsAndReport md5Hash collector config w)) = logged w \/
   exists e,
     logged (snd (getLogsAndReport md5Hash collector config w)) =
       logged w ++ [warned e]).
Proof.
  destruct (symon config) as [sc|] eqn:Hs.
  2:{ rewrite getLogsAndReport_without_symon by exact Hs.
      split; now left. }
  destruct (getUnreportedLogs (store w)) as [batch|e] eqn:Hb.
  2:{ rewrite (getLogsAndReport_rejected_read config sc w e
                 Hs Hb).
      split; [now left | right; now exists e]. }
  split.
  - right. exists sc, batch. repeat split; try assumption.
    + now apply getLogsAndReport_posts.
    + simpl. auto.
  - destruct (axios_settle (collector (post_for md5Hash config sc batch)))
      as [data|reason] eqn:Hr.
    + rewrite (getLogsAndReport_accepted_post config sc w
                 batch data Hs Hb Hr).
      cbn [snd logged].
      destruct (fst (setRequestLogAsReported _ _)) as [x|e1].
      * destruct (fst (setNotificationLogAsReported _ _)) as [y|e2].
        -- left. apply app_nil_r.
        -- right. now exists e2.
      * right. now exists e1.
    + rewrite (getLogsAndReport_rejected_post md5Hash collector config sc w
                 batch reason Hs Hb Hr).
      right. now exists reason.
Qed.

End Paths.

Lemma failed_read_posts_nothing_witness :
  getLogsAndReport const_hash accepting config_versioned
                   (fresh no_such_table_message) =
    (Resolved tt,
     mkWorld (store (fresh no_such_table_message))
             (posts (fresh no_such_table_message))
             (logged (fresh no_such_table_message) ++
              [warned no_such_table_message])) /\
  contains "Can't report history to Symon"
           (warning_prefix ++ no_such_table_message)%string.
Proof.
  apply (failed_read_posts_nothing
           const_hash accepting config_versioned symon1
           (fresh no_such_table_message) no_such_table_message).
  - reflexivity.
  - reflexivity.
Defined.


Lemma failed_upload_is_posted_again_witness :
  posts (snd (getLogsAndReport const_hash accepting config_versioned
                (snd (getLogsAndReport const_hash failing config_versioned
                                       (fresh store1))))) =
  posts (fresh store1) ++
  [post_for const_hash config_versioned symon1
     (mkUnreported (listUnreported [row1]) (listUnreported [row2]));
   post_for const_hash config_versioned symon1
     (mkUnreported (listUnreported [row1]) (listUnreported [row2]))].
Proof.
  apply (failed_upload_is_posted_again
           const_hash failing config_versioned symon1 (fresh store1)
           (mkUnreported (listUnreported [row1]) (listUnreported [row2]))
           accepting).
  - reflexivity.
  - reflexivity.
  - reflexivity.
Defined.

(** *** The fingerprint and the objects sent *)

(** X15: The fingerprint is never the empty string, provided [md5Hash] never
    returns it: an empty [config.version] is replaced by the hash like a
    missing one. *)
Theorem configVersion_is_never_empty (md5Hash : Config -> string) :
  (forall config, md5Hash config <> "") ->
  forall config, configVersion md5Hash config <> "".
Proof.
  intros Hhash config. unfold configVersion.
  destruct (version config) as [v|]; [|apply Hhash].
  destruct (String.eqb v "") eqn:E; [apply Hhash|].
  now apply String.eqb_neq.
Qed.

Lemma configVersion_is_never_empty_witness :
  configVersion const_hash config_empty_version <> "".
Proof.
  apply (configVersion_is_never_empty const_hash).
  intros config. discriminate.
Defined.

Lemma omit_id_unchanged (o : jsobj) :
  lookup "id" o = None -> omit_id o = o.
Proof.
  unfold omit_id. induction o as [|[k v] o IH]; [reflexivity|].
  cbn [lookup filter fst]. rewrite String.eqb_sym.
  destruct (String.eqb k "id"); [discriminate|].
  intros H. cbn [negb]. now rewrite IH.
Qed.

(** X16: Dropping [id] does nothing else to an object: the properties left are
    those whose name is not id, in the order they had; an object without
    [id] is sent as it is, and dropping [id] twice is dropping it once. *)
Theorem omit_id_keeps_the_rest_in_order (o : jsobj) :
  map fst (omit_id o) =
    filter (fun k => negb (String.eqb k "id")) (map fst o) /\
  (forall k v, In (k, v) (omit_id o) <-> In (k, v) o /\ k <> "id") /\
  (lookup "id" o = None -> omit_id o = o) /\
  omit_id (omit_id o) = omit_id o.
Proof.
  split; [|split; [|split]].
  - unfold omit_id. induction o as [|[k v] o IH]; [reflexivity|].
    cbn [filter map fst]. destruct (String.eqb k "id"); cbn [negb map fst];
      now rewrite IH.
  - intros k v. unfold omit_id. rewrite filter_In. cbn [fst].
    rewrite negb_true_iff, String.eqb_neq. reflexivity.
  - apply omit_id_unchanged.
  - apply omit_id_unchanged. apply omit_id_has_no_id.
Qed.

(** *** The handshake *)

(** X17: [handshake] hands its failures to the caller where [getLogsAndReport]
    keeps them: on a configuration without [symon], [handshake] throws
    before any request is made while [getLogsAndReport] does nothing; with
    [symon] set and a collector that fails the request (no response, or a
    status outside 2xx), the promise of [handshake] rejects with the reason
    that [getLogsAndReport] only logs, resolving.  The handshake goes to
    the configured url followed by /handshake, under the configured key,
    with the instance id and the host name. *)
Theorem handshake_raises_what_getLogsAndReport_logs
    {Store : Type} {api : StoreApi Store} (md5Hash : Config -> string)
    (os_hostname : string) (reply : http_reply) (config : Config)
    (w : world Store) :
  (symon config = None ->
   handshake os_hostname (fun _ => reply) config = ThrewTypeError /\
   getLogsAndReport md5Hash (fun _ => reply) config w = (Resolved tt, w)) /\
  (forall sc batch,
     symon config = Some sc ->
     getUnreportedLogs (store w) = Resolved batch ->
     upload_fails reply ->
     exists reason,
       handshake os_hostname (fun _ => reply) config =
         Returned
           ({| handshake_url := (symon_url sc ++ "/handshake")%string;
               handshake_data :=
                 {| instanceId := symon_id sc; hostname := os_hostname |};
               handshake_headers := [("x-api-key", symon_key sc)] |},
            Rejected reason) /\
       fst (getLogsAndReport md5Hash (fun _ => reply) config w) =
         Resolved tt /\
       logged (snd (getLogsAndReport md5Hash (fun _ => reply) config w)) =
         logged w ++ [warned reason]).
Proof.
  split.
  - intros Hs. split.
    + unfold handshake. now rewrite Hs.
    + now apply getLogsAndReport_without_symon.
  - intros sc batch Hs Hb Hfail.
    destruct (upload_fails_rejected reply Hfail) as [reason Hr].
    exists reason. split; [|split].
    + unfold handshake. rewrite Hs. cbv zeta. now rewrite Hr.
    + apply getLogsAndReport_resolves.
    + now rewrite (getLogsAndReport_rejected_post md5Hash (fun _ => reply)
                     config sc w batch reason Hs Hb Hr).
Qed.

End ReporterPaths.
